(** * SnlePosterior: log_prob and sample of the likelihood-based posterior

    A shallow embedding of [sbi/inference/posteriors/snle_posterior.py].
    The two public methods of [SnlePosterior] are translated statement by
    statement into a small state-and-exception monad.  Tensors carry their
    shape and a flat buffer; the trained network, the prior, torch's [+] and
    the MCMC driver are external collaborators and enter as section
    variables. *)

From Stdlib Require Import ZArith List Bool Lia.
From stdpp Require Import gmap strings list.

Local Open Scope string_scope.
Local Open Scope list_scope.
Local Open Scope nat_scope.

(** ** Exceptions and outcomes *)

(** The exception classes of the error taxonomy, plus the two built-in ones
    that the call sites of [sample] can produce ([RuntimeError] is what
    [Tensor.reshape] raises, [TypeError] what a bad keyword call raises). *)
Inductive exn : Type :=
| ConfigurationError
| ValidationError
| SamplingError
| RuntimeError
| TypeError.

Inductive outcome (A : Type) : Type :=
| Return (a : A)
| Raise (e : exn).
Arguments Return {A} a.
Arguments Raise {A} e.

(** ** Tensors *)

(** A tensor is its size (one extent per dimension) and its elements in
    row-major order.  Extents are unbounded naturals. *)
Record Tensor (scalar : Type) : Type := mkTensor {
  tshape : list nat;
  tdata : list scalar
}.
Arguments mkTensor {scalar} tshape tdata.
Arguments tshape {scalar} t.
Arguments tdata {scalar} t.

(** [torch.Size(s).numel()]: the product of the extents, 1 for the empty
    size. *)
Definition size_numel (s : list nat) : nat := fold_right Nat.mul 1 s.

Definition numel {scalar} (t : Tensor scalar) : nat := size_numel (tshape t).

(** *** [Tensor.reshape] with an inferred dimension

    [scan_shape] is the loop of torch's size inference over the requested
    shape: an entry [-1] marks the dimension to infer (at most one), a
    non-negative entry multiplies into [newsize], any other entry is
    rejected.  The inferred slot holds 0 until it is filled in. *)
Fixpoint scan_shape (shape : list Z) (dim : nat) (newsize : nat)
    (infer_dim : option nat) (res : list nat)
  : outcome (nat * option nat * list nat) :=
  match shape with
  | [] => Return (newsize, infer_dim, res)
  | d :: rest =>
      if (d =? -1)%Z then
        match infer_dim with
        | Some _ => Raise RuntimeError
        | None => scan_shape rest (S dim) newsize (Some dim) (res ++ [0])
        end
      else if (0 <=? d)%Z then
        scan_shape rest (S dim) (newsize * Z.to_nat d) infer_dim
                   (res ++ [Z.to_nat d])
      else Raise RuntimeError
  end.

Definition infer_size (shape : list Z) (n : nat) : outcome (list nat) :=
  match scan_shape shape 0 1 None [] with
  | Raise e => Raise e
  | Return (newsize, infer_dim, res) =>
      if (n =? newsize)
         || (bool_decide (is_Some infer_dim) && (0 <? newsize)
             && (n mod newsize =? 0))
      then
        match infer_dim with
        | Some i =>
            if newsize =? 0 then Raise RuntimeError
            else Return (<[i := n / newsize]> res)
        | None => Return res
        end
      else Raise RuntimeError
  end.

Definition reshape {scalar} (t : Tensor scalar) (shape : list Z)
  : outcome (Tensor scalar) :=
  match infer_size shape (numel t) with
  | Return s => Return (mkTensor s (tdata t))
  | Raise e => Raise e
  end.

(** The tuple passed to [reshape]: the entries of [sample_shape] followed
    by [-1]. *)
Definition shape_with_inferred_tail (sample_shape : list nat) : list Z :=
  map Z.of_nat sample_shape ++ [(-1)%Z].

(** Adding leading unit dimensions until the tensor has two. *)
Definition atleast_2d_shape (s : list nat) : list nat :=
  match s with
  | [] => [1; 1]
  | [n] => [1; n]
  | _ => s
  end.

(** ** Values of the keyword dictionary *)

Inductive pyval : Type :=
| PInt (n : Z)
| PStr (s : string)
| PBool (b : bool).

(** ** The posterior object and its surroundings *)

Section SnlePosterior.

Variable scalar : Type.
Variable rng_state : Type.

Abbreviation tensor := (Tensor scalar).

(** The keyword call
    [self._sample_posterior_mcmc(x=, num_samples=, show_progress_bars=,
    mcmc_method=, **mcmc_parameters)] as the callee receives it.  The
    unpacking [**] hands the callee a fresh dictionary with the same
    entries. *)
Record McmcCall : Type := mkMcmcCall {
  call_x : tensor;
  call_num_samples : nat;
  call_show_progress_bars : bool;
  call_mcmc_method : string;
  call_kwargs : gmap string pyval
}.

(** What an observer of a call can see besides its result: the warnings
    issued through [warn] and the MCMC runs that were started. *)
Inductive event : Type :=
| EvWarn (msg : string)
| EvMcmc (c : McmcCall).

(** The attributes of [self] that the two methods read, torch's global
    gradient mode and random generator, and the observable trace. *)
Record State : Type := mkState {
  default_x : option tensor;
  mcmc_method : string;
  mcmc_parameters : gmap string pyval;
  grad_enabled : bool;
  rng : rng_state;
  trace : list event
}.

Definition M (A : Type) : Type := State -> outcome A * State.

Definition ret {A} (a : A) : M A := fun st => (Return a, st).
Definition raise {A} (e : exn) : M A := fun st => (Raise e, st).
Definition bind {A B} (m : M A) (k : A -> M B) : M B :=
  fun st =>
    match m st with
    | (Return a, st') => k a st'
    | (Raise e, st') => (Raise e, st')
    end.
Definition gets {A} (f : State -> A) : M A := fun st => (Return (f st), st).

Notation "x <- m ;; k" := (bind m (fun x => k))
  (at level 100, m at next level, right associativity).
Notation "m ;;; k" := (bind m (fun _ => k))
  (at level 100, right associativity).

Definition emit (e : event) : M unit :=
  fun st =>
    (Return tt,
     mkState (default_x st) (mcmc_method st) (mcmc_parameters st)
             (grad_enabled st) (rng st) (trace st ++ [e])).

(** [warnings.warn(msg)] *)
Definition warn (msg : string) : M unit := emit (EvWarn msg).

Definition set_grad (b : bool) : M unit :=
  fun st =>
    (Return tt,
     mkState (default_x st) (mcmc_method st) (mcmc_parameters st)
             b (rng st) (trace st)).

(** [with torch.set_grad_enabled(b): body]: the previous mode is restored
    when the block is left, normally or by an exception. *)
Definition with_grad_enabled {A} (b : bool) (body : M A) : M A :=
  fun st =>
    let prev := grad_enabled st in
    match body (snd (set_grad b st)) with
    | (r, st') => (r, snd (set_grad prev st'))
    end.

(** *** External collaborators *)

(** [torch.as_tensor(_, dtype=float32)] on one element. *)
Variable as_float32 : scalar -> scalar.
(** [self.net.log_prob(x, theta)] *)
Variable net_log_prob : tensor -> tensor -> tensor.
(** [self._prior.log_prob(theta)] *)
Variable prior_log_prob : tensor -> tensor.
(** torch's [+] on tensors. *)
Variable tensor_add : tensor -> tensor -> tensor.
(** [NeuralPosterior._sample_posterior_mcmc]: it may read and change
    anything in reach and may raise (a [TypeError] for a keyword it does
    not take or that is given twice, a [SamplingError] from a backend).
    The observation it receives can share storage with the stored default,
    so a driver that writes into it shows up here as a driver that changes
    [default_x]. *)
Variable sample_posterior_mcmc : McmcCall -> M tensor.

(** *** Helpers of the base class *)

(** Modelled from the spec: [atleast_2d_float32_tensor] of
    [sbi.utils.torchutils] is missing from the sources; the spec has [x]
    coerced to a 2D float tensor. *)
Definition atleast_2d_float32_tensor (x : tensor) : tensor :=
  mkTensor (atleast_2d_shape (tshape x)) (map as_float32 (tdata x)).

(** Modelled from the spec: [ensure_theta_batched] is missing from the
    sources; the spec has theta coerced to at-least-2D batch form. *)
Definition ensure_theta_batched (theta : tensor) : tensor :=
  mkTensor (atleast_2d_shape (tshape theta)) (tdata theta).

(** Modelled from the spec: [NeuralPosterior._x_else_default_x] is missing
    from the sources; the spec resolves [x] to the supplied value or the
    stored default and fails with [ConfigurationError] if neither is
    available. *)
Definition x_else_default_x (x : option tensor) : M tensor :=
  match x with
  | Some x => ret x
  | None =>
      d <- gets default_x ;;
      match d with
      | Some x_o => ret x_o
      | None => raise ConfigurationError
      end
  end.

(** The batch dimension of a tensor is its leading extent. *)
Definition batch_dim (x : tensor) : option nat := head (tshape x).

(** Modelled from the spec: [NeuralPosterior._ensure_single_x] is missing
    from the sources; the spec fails with [ValidationError] if the batch
    dimension of [x] is not 1. *)
Definition ensure_single_x (x : tensor) : M unit :=
  match batch_dim x with
  | Some 1 => ret tt
  | _ => raise ValidationError
  end.

(** Modelled from the spec:
    [NeuralPosterior._ensure_x_consistent_with_default_x] is missing from
    the sources; the spec fails with [ValidationError] if the shape of [x]
    does not match the shape of a previously fixed default. *)
Definition ensure_x_consistent_with_default_x (x : tensor) : M unit :=
  d <- gets default_x ;;
  match d with
  | Some x_o =>
      if bool_decide (tshape x = tshape x_o) then ret tt
      else raise ValidationError
  | None => ret tt
  end.

(** Modelled from the spec: [NeuralPosterior._build_theta_x_for_log_prob_]
    is missing from the sources; the spec of [log_prob] resolves [x] to the
    supplied value or the stored default and coerces theta to at-least-2D
    batch form before evaluation. *)
Definition build_theta_x_for_log_prob_ (theta : tensor) (x : option tensor)
  : M (tensor * tensor) :=
  x <- x_else_default_x x ;;
  ret (ensure_theta_batched theta, x).

(** *** [SnlePosterior.log_prob]

    Prepare theta and [x], warn, then add the two log-densities under the
    requested gradient mode. *)

Definition normalizing_constant_warning : string :=
  "The log probability from SNL is only correct up to a normalizing constant.".

Definition log_prob (theta : tensor) (x : option tensor)
    (track_gradients : bool) : M tensor :=
  tx <- build_theta_x_for_log_prob_ theta x ;;
  let '(theta, x) := tx in
  warn normalizing_constant_warning ;;;
  with_grad_enabled track_gradients
    (ret (tensor_add (net_log_prob x theta) (prior_log_prob theta))).

(** *** [SnlePosterior.sample]

    The body in source order: resolve and coerce [x], the two checks, the
    number of draws, the choice between each argument and its stored
    default, the driver call, the final reshape.  The only addition is the
    [EvMcmc] record written to the trace as the driver is entered.
    [sample_with_mcmc] is accepted and never read. *)

Definition sample (sample_shape : list nat) (x : option tensor)
    (show_progress_bars : bool) (sample_with_mcmc : option bool)
    (mcmc_method_arg : option string)
    (mcmc_parameters_arg : option (gmap string pyval)) : M tensor :=
  x <- x_else_default_x x ;;
  let x := atleast_2d_float32_tensor x in
  ensure_single_x x ;;;
  ensure_x_consistent_with_default_x x ;;;
  let num_samples := size_numel sample_shape in
  mcmc_method <- match mcmc_method_arg with
                 | Some m => ret m
                 | None => gets mcmc_method
                 end ;;
  mcmc_parameters <- match mcmc_parameters_arg with
                     | Some p => ret p
                     | None => gets mcmc_parameters
                     end ;;
  let call := mkMcmcCall x num_samples show_progress_bars mcmc_method
                         mcmc_parameters in
  emit (EvMcmc call) ;;;
  samples <- sample_posterior_mcmc call ;;
  fun st => (reshape samples (shape_with_inferred_tail sample_shape), st).

End SnlePosterior.

Arguments mkMcmcCall {scalar} call_x call_num_samples call_show_progress_bars
  call_mcmc_method call_kwargs.
Arguments call_x {scalar} m.
Arguments call_num_samples {scalar} m.
Arguments call_show_progress_bars {scalar} m.
Arguments call_mcmc_method {scalar} m.
Arguments call_kwargs {scalar} m.
Arguments EvWarn {scalar} msg.
Arguments EvMcmc {scalar} c.
Arguments mkState {scalar rng_state} default_x mcmc_method mcmc_parameters
  grad_enabled rng trace.
Arguments default_x {scalar rng_state} s.
Arguments mcmc_method {scalar rng_state} s.
Arguments mcmc_parameters {scalar rng_state} s.
Arguments grad_enabled {scalar rng_state} s.
Arguments rng {scalar rng_state} s.
Arguments trace {scalar rng_state} s.
Arguments emit {scalar rng_state} e st.
Arguments batch_dim {scalar} x.
Arguments atleast_2d_float32_tensor {scalar} as_float32 x.
Arguments ensure_theta_batched {scalar} theta.
Arguments log_prob {scalar rng_state} net_log_prob prior_log_prob tensor_add
  theta x track_gradients st.
Arguments sample {scalar rng_state} as_float32 sample_posterior_mcmc
  sample_shape x show_progress_bars sample_with_mcmc mcmc_method_arg
  mcmc_parameters_arg st.

(** ** A concrete posterior: three parameters, integer scalars

    The linear-Gaussian test uses a three-dimensional parameter; here the
    collaborators are replaced by deterministic stand-ins over [Z] so that
    whole calls evaluate. *)

Definition zeros (s : list nat) : Tensor Z :=
  mkTensor s (repeat 0%Z (size_numel s)).

Definition lg_dim : nat := 3.

Definition lg_as_float32 (v : Z) : Z := v.

Definition lg_add (a b : Tensor Z) : Tensor Z :=
  mkTensor (tshape a) (zip_with Z.add (tdata a) (tdata b)).

(** One log-density per row of theta: here the sum of the row's index and
    the number of elements of [x]. *)
Definition lg_net_log_prob (x theta : Tensor Z) : Tensor Z :=
  let rows := hd 0 (tshape theta) in
  mkTensor [rows] (map (fun i => Z.of_nat (i + length (tdata x))) (seq 0 rows)).

Definition lg_prior_log_prob (theta : Tensor Z) : Tensor Z :=
  let rows := hd 0 (tshape theta) in
  mkTensor [rows] (repeat (-1)%Z rows).

(** A driver that returns [num_samples] rows of [lg_dim] zeros, advances the
    generator and leaves everything else alone. *)
Definition lg_mcmc (c : McmcCall Z) : M Z nat (Tensor Z) :=
  fun st =>
    (Return (zeros [call_num_samples c; lg_dim]),
     mkState (default_x st) (mcmc_method st) (mcmc_parameters st)
             (grad_enabled st) (S (rng st)) (trace st)).

Definition lg_x : Tensor Z := mkTensor [3] [0; 0; 0]%Z.

Definition lg_x_batch : Tensor Z := mkTensor [2; 3] [0; 0; 0; 1; 1; 1]%Z.

Definition lg_x_wide : Tensor Z := mkTensor [1; 4] [0; 0; 0; 0]%Z.

Definition lg_theta : Tensor Z := mkTensor [2; 3] [1; 2; 3; 4; 5; 6]%Z.

Definition lg_stored_parameters : gmap string pyval :=
  {[ "warmup_steps" := PInt 50; "thin" := PInt 10 ]}.

(** A freshly built posterior: no default observation yet. *)
Definition lg_fresh : State Z nat :=
  mkState None "slice_np" lg_stored_parameters false 0 [].

(** The same posterior once [lg_x] (as a single row) is the default. *)
Definition lg_with_default : State Z nat :=
  mkState (Some (mkTensor [1; 3] [0; 0; 0]%Z)) "slice_np"
          lg_stored_parameters false 0 [].

Definition lg_sample := sample lg_as_float32 lg_mcmc.

Definition lg_log_prob :=
  @log_prob Z nat lg_net_log_prob lg_prior_log_prob lg_add.

(** Three further drivers: one whose backend fails, one that hands back
    twice the requested rows, one that always hands back three rows. *)
Definition lg_mcmc_failing (c : McmcCall Z) : M Z nat (Tensor Z) :=
  fun st =>
    (Raise SamplingError,
     mkState (default_x st) (mcmc_method st) (mcmc_parameters st)
             (grad_enabled st) (S (rng st)) (trace st)).

Definition lg_mcmc_surplus (c : McmcCall Z) : M Z nat (Tensor Z) :=
  fun st =>
    (Return (zeros [2 * call_num_samples c; lg_dim]),
     mkState (default_x st) (mcmc_method st) (mcmc_parameters st)
             (grad_enabled st) (S (rng st)) (trace st)).

Definition lg_mcmc_three_rows (c : McmcCall Z) : M Z nat (Tensor Z) :=
  fun st =>
    (Return (zeros [3; lg_dim]),
     mkState (default_x st) (mcmc_method st) (mcmc_parameters st)
             (grad_enabled st) (S (rng st)) (trace st)).

(** The last MCMC run recorded in a trace. *)
Definition last_mcmc_call {scalar} (tr : list (event scalar))
  : option (McmcCall scalar) :=
  fold_left (fun acc e => match e with EvMcmc c => Some c | _ => acc end)
            tr None.

(** The number of MCMC runs recorded in a trace. *)
Fixpoint mcmc_runs {scalar} (tr : list (event scalar)) : nat :=
  match tr with
  | [] => 0
  | EvMcmc _ :: rest => S (mcmc_runs rest)
  | EvWarn _ :: rest => mcmc_runs rest
  end.

(** The observation a call conditions on: the supplied one, else the stored
    default. *)
Definition resolved_x {scalar rng_state} (st : State scalar rng_state)
    (x : option (Tensor scalar)) : option (Tensor scalar) :=
  match x with
  | Some x => Some x
  | None => default_x st
  end.

(** The two shape checks of [sample] on the coerced observation: a single
    row, and the shape of the stored default if there is one. *)
Definition passes_checks {scalar rng_state} (as_float32 : scalar -> scalar)
    (st : State scalar rng_state) (x : Tensor scalar) : bool :=
  bool_decide (batch_dim (atleast_2d_float32_tensor as_float32 x) = Some 1)
  && match default_x st with
     | Some x_o =>
         bool_decide (tshape (atleast_2d_float32_tensor as_float32 x)
                      = tshape x_o)
     | None => true
     end.

(** The stored defaults of the posterior: observation, MCMC method and MCMC
    parameters. *)
Definition defaults_of {scalar rng_state} (st : State scalar rng_state)
  : option (Tensor scalar) * string * gmap string pyval :=
  (default_x st, mcmc_method st, mcmc_parameters st).

(** The driver leaves the default observation and the default MCMC method
    and parameters of the posterior as they were. *)
Definition preserves_defaults {scalar rng_state}
    (mcmc : McmcCall scalar -> M scalar rng_state (Tensor scalar)) : Prop :=
  forall c st,
    default_x (snd (mcmc c st)) = default_x st
    /\ mcmc_method (snd (mcmc c st)) = mcmc_method st
    /\ mcmc_parameters (snd (mcmc c st)) = mcmc_parameters st.

(** The reading of "merged over the stored defaults" entry by entry: the
    caller's entries, then the stored entries the caller did not give. *)
Definition merged_over_defaults (caller : option (gmap string pyval))
    (stored : gmap string pyval) : gmap string pyval :=
  match caller with
  | Some p => p ∪ stored
  | None => stored
  end.

(** * Properties *)

(** ** Size inference for a shape that ends in the inferred dimension *)

Lemma scan_shape_inferred_tail (s : list nat) :
  forall dim newsize res,
    scan_shape (shape_with_inferred_tail s) dim newsize None res
    = Return (newsize * size_numel s, Some (dim + length s), res ++ s ++ [0]).
Proof.
  unfold shape_with_inferred_tail.
  induction s as [|n s IH]; intros dim newsize res; simpl.
  - by rewrite Nat.mul_1_r, Nat.add_0_r.
  - destruct (Z.eqb_spec (Z.of_nat n) (-1)) as [E|_]; [lia|].
    destruct (Z.leb_spec 0 (Z.of_nat n)) as [_|E]; [|lia].
    rewrite Nat2Z.id, IH, <- app_assoc, <- Nat.mul_assoc, Nat.add_succ_comm.
    reflexivity.
Qed.

Lemma insert_inferred_tail (s : list nat) (v : nat) :
  <[length s := v]> (s ++ [0]) = s ++ [v].
Proof. induction s as [|n s IH]; simpl; [reflexivity | by rewrite IH]. Qed.

Lemma infer_size_inferred_tail (s : list nat) (n : nat) :
  infer_size (shape_with_inferred_tail s) n
  = if (0 <? size_numel s) && (n mod size_numel s =? 0)
    then Return (s ++ [n / size_numel s])
    else Raise RuntimeError.
Proof.
  unfold infer_size. rewrite scan_shape_inferred_tail.
  rewrite !Nat.mul_1_l.
  change (0 + length s) with (length s).
  change ([] ++ s ++ [0]) with (s ++ [0]).
  rewrite bool_decide_eq_true_2 by eauto.
  rewrite insert_inferred_tail.
  destruct (Nat.ltb_spec 0 (size_numel s)) as [Hpos|Hz]; simpl.
  - destruct (Nat.eqb_spec (n mod size_numel s) 0) as [Hm|Hm].
    + rewrite orb_true_r.
      destruct (Nat.eqb_spec (size_numel s) 0); [lia|].
      reflexivity.
    + rewrite orb_false_r.
      destruct (Nat.eqb_spec n (size_numel s)) as [->|_]; [|reflexivity].
      rewrite Nat.Div0.mod_same in Hm. lia.
  - rewrite orb_false_r.
    assert (size_numel s = 0) as -> by lia.
    destruct (Nat.eqb_spec n 0); reflexivity.
Qed.

(** A flat batch of [size_numel s] rows of width [d] reshapes to [s ++ [d]]
    as soon as no extent of [s] is zero. *)
Lemma reshape_flat_batch {scalar} (t : Tensor scalar) (s : list nat) (d : nat) :
  0 < size_numel s ->
  tshape t = [size_numel s; d] ->
  reshape t (shape_with_inferred_tail s)
  = Return (mkTensor (s ++ [d]) (tdata t)).
Proof.
  intros Hpos Hshape. unfold reshape, numel.
  rewrite infer_size_inferred_tail, Hshape. simpl.
  rewrite Nat.mul_1_r.
  destruct (Nat.ltb_spec 0 (size_numel s)); [|lia]. simpl.
  rewrite (Nat.mul_comm (size_numel s) d), Nat.Div0.mod_mul. simpl.
  rewrite Nat.div_mul by lia. reflexivity.
Qed.

(** With a zero extent in [s] the inferred dimension is ambiguous and
    [reshape] raises, whatever the tensor. *)
Lemma reshape_zero_extent {scalar} (t : Tensor scalar) (s : list nat) :
  size_numel s = 0 ->
  reshape t (shape_with_inferred_tail s) = Raise RuntimeError.
Proof.
  intros Hz. unfold reshape.
  rewrite infer_size_inferred_tail, Hz. reflexivity.
Qed.

Lemma size_numel_pos (s : list nat) :
  0 < size_numel s <-> Forall (fun n => 0 < n) s.
Proof.
  induction s as [|n s IH]; simpl.
  - split; [constructor | lia].
  - rewrite Forall_cons, <- IH. nia.
Qed.

(** ** The two methods *)

Section Properties.

Context {scalar rng_state : Type}.
Variable as_float32 : scalar -> scalar.
Variable net_log_prob : Tensor scalar -> Tensor scalar -> Tensor scalar.
Variable prior_log_prob : Tensor scalar -> Tensor scalar.
Variable tensor_add : Tensor scalar -> Tensor scalar -> Tensor scalar.
Variable mcmc : McmcCall scalar -> M scalar rng_state (Tensor scalar).

Implicit Types (st : State scalar rng_state) (x theta : Tensor scalar).
Implicit Types (sample_shape : list nat) (xo : option (Tensor scalar)).

Local Abbreviation coerce := (atleast_2d_float32_tensor as_float32).

Lemma x_else_default_x_resolved st xo x :
  resolved_x st xo = Some x ->
  x_else_default_x scalar rng_state xo st = (Return x, st).
Proof.
  destruct xo as [x'|]; simpl; intros H.
  - by inversion H.
  - unfold bind, gets. rewrite H. reflexivity.
Qed.

Lemma x_else_default_x_missing st :
  default_x st = None ->
  x_else_default_x scalar rng_state None st = (Raise ConfigurationError, st).
Proof. intros H. simpl. unfold bind, gets. by rewrite H. Qed.

Lemma ensure_single_x_outcome st x :
  ensure_single_x scalar rng_state x st
  = (if bool_decide (batch_dim x = Some 1) then Return tt
     else Raise ValidationError, st).
Proof.
  unfold ensure_single_x.
  destruct (batch_dim x) as [[|[|b]]|]; reflexivity.
Qed.

Lemma ensure_x_consistent_outcome st x :
  ensure_x_consistent_with_default_x scalar rng_state x st
  = (match default_x st with
     | Some x_o => if bool_decide (tshape x = tshape x_o) then Return tt
                   else Raise ValidationError
     | None => Return tt
     end, st).
Proof.
  unfold ensure_x_consistent_with_default_x, bind, gets.
  destruct (default_x st) as [x_o|]; [|reflexivity].
  destruct (bool_decide (tshape x = tshape x_o)); reflexivity.
Qed.

(** Once the observation is resolved and passes both checks, [sample] is
    one run of the driver followed by the final reshape. *)
Lemma sample_run sample_shape xo x spb swm mm mp st :
  resolved_x st xo = Some x ->
  passes_checks as_float32 st x = true ->
  sample as_float32 mcmc sample_shape xo spb swm mm mp st
  = let call := mkMcmcCall (coerce x) (size_numel sample_shape) spb
                  (default (mcmc_method st) mm)
                  (default (mcmc_parameters st) mp) in
    match mcmc call (snd (emit (EvMcmc call) st)) with
    | (Return samples, st') =>
        (reshape samples (shape_with_inferred_tail sample_shape), st')
    | (Raise e, st') => (Raise e, st')
    end.
Proof.
  intros Hx Hchk. unfold passes_checks in Hchk.
  apply andb_prop in Hchk as [Hsingle Hcons]. unfold sample.
  unfold bind at 1. rewrite (x_else_default_x_resolved _ _ _ Hx).
  unfold bind at 1. rewrite ensure_single_x_outcome, Hsingle.
  unfold bind at 1. rewrite ensure_x_consistent_outcome.
  assert (match default_x st with
          | Some x_o => if bool_decide (tshape (coerce x) = tshape x_o)
                        then Return tt else Raise ValidationError
          | None => Return tt
          end = Return tt) as ->.
  { destruct (default_x st) as [x_o|]; [|reflexivity]. by rewrite Hcons. }
  destruct mm as [m|], mp as [p|]; reflexivity.
Qed.

(** *** [log_prob] *)

(** C1: for every theta and every resolved observation x (supplied, or the
    stored default when omitted), [log_prob] returns
    [net.log_prob(x, theta) + prior.log_prob(theta)], theta in batch form. *)
Theorem log_prob_unnormalized_posterior theta xo x track_gradients st :
  resolved_x st xo = Some x ->
  fst (log_prob net_log_prob prior_log_prob tensor_add theta xo
         track_gradients st)
  = Return (tensor_add (net_log_prob x (ensure_theta_batched theta))
                       (prior_log_prob (ensure_theta_batched theta))).
Proof.
  intros Hx. unfold log_prob, build_theta_x_for_log_prob_.
  unfold bind. rewrite (x_else_default_x_resolved _ _ _ Hx). reflexivity.
Qed.

(** C7: every call to [log_prob] that has an observation to condition on
    issues the normalizing-constant warning exactly once and still returns
    the computed value: the warning is an entry of the trace, never an
    exception, and nothing else of the state changes. *)
Theorem log_prob_warns_and_returns theta xo x track_gradients st :
  resolved_x st xo = Some x ->
  log_prob net_log_prob prior_log_prob tensor_add theta xo track_gradients st
  = (Return (tensor_add (net_log_prob x (ensure_theta_batched theta))
                        (prior_log_prob (ensure_theta_batched theta))),
     mkState (default_x st) (mcmc_method st) (mcmc_parameters st)
             (grad_enabled st) (rng st)
             (trace st ++ [EvWarn normalizing_constant_warning])).
Proof.
  intros Hx. unfold log_prob, build_theta_x_for_log_prob_.
  unfold bind. rewrite (x_else_default_x_resolved _ _ _ Hx). reflexivity.
Qed.

(** *** [sample] *)

(** C2, amended: for every sample_shape without a zero extent, [sample]
    asks the driver for [product(sample_shape)] draws and returns them with
    leading dimensions [sample_shape] and the parameter dimension last. *)
Theorem sample_result_shape sample_shape xo x spb swm mm mp st samples st' d :
  0 < size_numel sample_shape ->
  resolved_x st xo = Some x ->
  passes_checks as_float32 st x = true ->
  (let call := mkMcmcCall (coerce x) (size_numel sample_shape) spb
                 (default (mcmc_method st) mm)
                 (default (mcmc_parameters st) mp) in
   mcmc call (snd (emit (EvMcmc call) st)) = (Return samples, st')) ->
  tshape samples = [size_numel sample_shape; d] ->
  sample as_float32 mcmc sample_shape xo spb swm mm mp st
  = (Return (mkTensor (sample_shape ++ [d]) (tdata samples)), st').
Proof.
  intros Hpos Hx Hchk Hrun Hshape.
  rewrite (sample_run _ _ _ _ _ _ _ _ Hx Hchk). cbv zeta in *.
  rewrite Hrun. by rewrite (reshape_flat_batch _ _ d).
Qed.

(** With a zero extent in sample_shape no driver can make [sample] return:
    whatever batch comes back, the final reshape raises. *)
Lemma sample_zero_extent_never_returns
    sample_shape xo spb swm mm mp st (t : Tensor scalar) :
  size_numel sample_shape = 0 ->
  fst (sample as_float32 mcmc sample_shape xo spb swm mm mp st) <> Return t.
Proof.
  intros Hz. unfold sample. unfold bind at 1.
  destruct (x_else_default_x scalar rng_state xo st) as [[x|e] st1];
    [|discriminate].
  unfold bind at 1. rewrite ensure_single_x_outcome.
  case_bool_decide; [|discriminate].
  unfold bind at 1. rewrite ensure_x_consistent_outcome.
  destruct (match default_x st1 with
            | Some x_o => if bool_decide (tshape (coerce x) = tshape x_o)
                          then Return tt else Raise ValidationError
            | None => Return tt
            end) as [[]|e]; [|discriminate].
  destruct mm as [m|], mp as [p|]; unfold bind, gets, ret, emit; simpl;
    match goal with
    | |- context [mcmc ?c ?s] => destruct (mcmc c s) as [[smp|e] st2]
    end;
    simpl; try discriminate;
    by rewrite (reshape_zero_extent smp sample_shape Hz).
Qed.

(** C10: with the empty sample_shape, [sample] asks the driver for exactly
    one draw and returns it as a single vector of the parameter dimension. *)
Theorem sample_empty_shape xo x spb swm mm mp st samples st' d :
  resolved_x st xo = Some x ->
  passes_checks as_float32 st x = true ->
  (let call := mkMcmcCall (coerce x) 1 spb
                 (default (mcmc_method st) mm)
                 (default (mcmc_parameters st) mp) in
   mcmc call (snd (emit (EvMcmc call) st)) = (Return samples, st')) ->
  tshape samples = [1; d] ->
  sample as_float32 mcmc [] xo spb swm mm mp st
  = (Return (mkTensor [d] (tdata samples)), st').
Proof.
  intros Hx Hchk Hrun Hshape.
  rewrite (sample_run _ _ _ _ _ _ _ _ Hx Hchk). cbv zeta in *.
  change (size_numel []) with 1. rewrite Hrun.
  by rewrite (reshape_flat_batch samples [] d) by (simpl; auto).
Qed.

(** C3: for every x whose batch dimension (as a 2D tensor) exceeds 1,
    [sample] raises [ValidationError] with the state as it was: no MCMC run
    has been started. *)
Theorem sample_rejects_batched_x sample_shape xo x b spb swm mm mp st :
  resolved_x st xo = Some x ->
  batch_dim (coerce x) = Some b ->
  1 < b ->
  sample as_float32 mcmc sample_shape xo spb swm mm mp st
  = (Raise ValidationError, st)
  /\ mcmc_runs
       (trace (snd (sample as_float32 mcmc sample_shape xo spb swm mm mp st)))
     = mcmc_runs (trace st).
Proof.
  intros Hx Hb Hlt.
  assert (sample as_float32 mcmc sample_shape xo spb swm mm mp st
          = (Raise ValidationError, st)) as E.
  { unfold sample. unfold bind at 1.
    rewrite (x_else_default_x_resolved _ _ _ Hx).
    unfold bind at 1. rewrite ensure_single_x_outcome, Hb.
    rewrite bool_decide_eq_false_2; [reflexivity|].
    intros [= ->]. lia. }
  by rewrite E.
Qed.

(** C4: a call of [log_prob] or of [sample] that omits x while no default
    observation is stored raises [ConfigurationError]. *)
Theorem missing_x_raises_configuration_error
    theta track_gradients sample_shape spb swm mm mp st :
  default_x st = None ->
  log_prob net_log_prob prior_log_prob tensor_add theta None track_gradients st
  = (Raise ConfigurationError, st)
  /\ sample as_float32 mcmc sample_shape None spb swm mm mp st
     = (Raise ConfigurationError, st).
Proof.
  intros Hd. split.
  - unfold log_prob, build_theta_x_for_log_prob_. unfold bind.
    by rewrite (x_else_default_x_missing _ Hd).
  - unfold sample. unfold bind at 1.
    by rewrite (x_else_default_x_missing _ Hd).
Qed.

(** C5: once a default observation is stored, a [sample] call whose x (as a
    2D tensor) has another shape than that default raises
    [ValidationError]. *)
Theorem sample_rejects_inconsistent_x sample_shape xo x x_o spb swm mm mp st :
  default_x st = Some x_o ->
  resolved_x st xo = Some x ->
  tshape (coerce x) <> tshape x_o ->
  sample as_float32 mcmc sample_shape xo spb swm mm mp st
  = (Raise ValidationError, st).
Proof.
  intros Hd Hx Hne. unfold sample. unfold bind at 1.
  rewrite (x_else_default_x_resolved _ _ _ Hx).
  unfold bind at 1. rewrite ensure_single_x_outcome.
  case_bool_decide; [|reflexivity].
  unfold bind at 1. rewrite ensure_x_consistent_outcome, Hd.
  by rewrite bool_decide_eq_false_2.
Qed.

(** C6, amended: a supplied mcmc_method replaces the stored method and a
    supplied mcmc_parameters dictionary replaces the stored dictionary as a
    whole; an omitted one falls back to the stored value.  The driver is run
    on exactly that method and that dictionary. *)
Theorem sample_override_replaces sample_shape xo x spb swm mm mp st :
  resolved_x st xo = Some x ->
  passes_checks as_float32 st x = true ->
  exists call,
    call_mcmc_method call
    = match mm with Some m => m | None => mcmc_method st end
    /\ call_kwargs call
       = match mp with Some p => p | None => mcmc_parameters st end
    /\ trace (snd (emit (EvMcmc call) st)) = trace st ++ [EvMcmc call]
    /\ sample as_float32 mcmc sample_shape xo spb swm mm mp st
       = match mcmc call (snd (emit (EvMcmc call) st)) with
         | (Return samples, st') =>
             (reshape samples (shape_with_inferred_tail sample_shape), st')
         | (Raise e, st') => (Raise e, st')
         end.
Proof.
  intros Hx Hchk.
  eexists (mkMcmcCall (coerce x) (size_numel sample_shape) spb
             (default (mcmc_method st) mm) (default (mcmc_parameters st) mp)).
  split; [|split; [|split]].
  - destruct mm; reflexivity.
  - destruct mp; reflexivity.
  - reflexivity.
  - by rewrite (sample_run _ _ _ _ _ _ _ _ Hx Hchk).
Qed.

Lemma sample_defaults_of sample_shape xo spb swm mm mp st :
  preserves_defaults mcmc ->
  defaults_of (snd (sample as_float32 mcmc sample_shape xo spb swm mm mp st))
  = defaults_of st.
Proof.
  intros Hframe. unfold sample.
  unfold bind at 1.
  destruct (x_else_default_x scalar rng_state xo st) as [[x|e] st1] eqn:E1.
  2:{ destruct xo as [x|]; simpl in E1; [discriminate|].
      unfold bind, gets in E1.
      destruct (default_x st); inversion E1; subst; reflexivity. }
  assert (st1 = st) as ->.
  { destruct xo as [x'|]; simpl in E1; [by inversion E1|].
    unfold bind, gets in E1. destruct (default_x st); by inversion E1. }
  unfold bind at 1. rewrite ensure_single_x_outcome.
  case_bool_decide; [|reflexivity].
  unfold bind at 1. rewrite ensure_x_consistent_outcome.
  destruct (match default_x st with
            | Some x_o => if bool_decide (tshape (coerce x) = tshape x_o)
                          then Return tt else Raise ValidationError
            | None => Return tt
            end) as [[]|e]; [|reflexivity].
  destruct mm as [m|], mp as [p|]; unfold bind, gets, ret, emit; simpl;
    match goal with
    | |- context [mcmc ?c ?s] =>
        destruct (Hframe c s) as (F1 & F2 & F3);
        destruct (mcmc c s) as [[smp|e] st2]
    end;
    unfold defaults_of; simpl in *; by rewrite F1, F2, F3.
Qed.

(** C8: provided the MCMC driver itself leaves them alone, no [sample] call
    changes the stored default observation, the stored default MCMC method
    or the stored default MCMC parameters. *)
Theorem sample_preserves_defaults sample_shape xo spb swm mm mp st :
  preserves_defaults mcmc ->
  default_x (snd (sample as_float32 mcmc sample_shape xo spb swm mm mp st))
  = default_x st
  /\ mcmc_method (snd (sample as_float32 mcmc sample_shape xo spb swm mm mp st))
     = mcmc_method st
  /\ mcmc_parameters
       (snd (sample as_float32 mcmc sample_shape xo spb swm mm mp st))
     = mcmc_parameters st.
Proof.
  intros Hframe.
  pose proof (sample_defaults_of sample_shape xo spb swm mm mp st Hframe) as H.
  unfold defaults_of in H. by inversion H.
Qed.

(** C9: the [sample_with_mcmc] argument does not influence [sample]: with
    all other arguments and the state fixed, any two values give the same
    result and the same final state. *)
Theorem sample_with_mcmc_is_ignored
    sample_shape xo spb (b1 b2 : option bool) mm mp st :
  sample as_float32 mcmc sample_shape xo spb b1 mm mp st
  = sample as_float32 mcmc sample_shape xo spb b2 mm mp st.
Proof. reflexivity. Qed.

End Properties.

(** ** The properties on the concrete posterior *)

Lemma log_prob_unnormalized_posterior_witness :
  resolved_x lg_with_default None = Some (mkTensor [1; 3] [0; 0; 0]%Z)
  /\ fst (lg_log_prob lg_theta None true lg_with_default)
     = Return (mkTensor [2] [2; 3]%Z).
Proof.
  split; [reflexivity|].
  exact (log_prob_unnormalized_posterior lg_net_log_prob lg_prior_log_prob
           lg_add lg_theta None (mkTensor [1; 3] [0; 0; 0]%Z) true
           lg_with_default eq_refl).
Defined.

Lemma log_prob_warns_and_returns_witness :
  resolved_x lg_fresh (Some lg_x) = Some lg_x
  /\ lg_log_prob lg_theta (Some lg_x) false lg_fresh
     = (Return (mkTensor [2] [2; 3]%Z),
        mkState None "slice_np" lg_stored_parameters false 0
                [EvWarn normalizing_constant_warning]).
Proof.
  split; [reflexivity|].
  exact (log_prob_warns_and_returns lg_net_log_prob lg_prior_log_prob lg_add
           lg_theta (Some lg_x) lg_x false lg_fresh eq_refl).
Defined.

Lemma sample_result_shape_witness :
  0 < size_numel [10; 5]
  /\ passes_checks lg_as_float32 lg_fresh lg_x = true
  /\ fst (lg_sample [10; 5] (Some lg_x) true None None None lg_fresh)
     = Return (zeros [10; 5; lg_dim]).
Proof.
  split; [vm_compute; lia|]. split; [reflexivity|].
  exact (f_equal fst
           (sample_result_shape lg_as_float32 lg_mcmc [10; 5] (Some lg_x) lg_x
              true None None None lg_fresh (zeros [50; lg_dim]) _ lg_dim
              ltac:(vm_compute; lia) eq_refl eq_refl eq_refl eq_refl)).
Defined.

(** A zero extent in sample_shape: the driver is asked for 0 draws and the
    final reshape raises. *)
Lemma sample_zero_extent_raises :
  fst (lg_sample [0] (Some lg_x) true None None None lg_fresh)
  = Raise RuntimeError.
Proof. reflexivity. Qed.

Lemma sample_empty_shape_witness :
  passes_checks lg_as_float32 lg_with_default (mkTensor [1; 3] [0; 0; 0]%Z)
  = true
  /\ fst (lg_sample [] None true None None None lg_with_default)
     = Return (mkTensor [lg_dim] [0; 0; 0]%Z).
Proof.
  split; [reflexivity|].
  exact (f_equal fst
           (sample_empty_shape lg_as_float32 lg_mcmc None
              (mkTensor [1; 3] [0; 0; 0]%Z) true None None None
              lg_with_default (zeros [1; lg_dim]) _ lg_dim
              eq_refl eq_refl eq_refl eq_refl)).
Defined.

Lemma sample_rejects_batched_x_witness :
  batch_dim (atleast_2d_float32_tensor lg_as_float32 lg_x_batch) = Some 2
  /\ lg_sample [4] (Some lg_x_batch) true None None None lg_fresh
     = (Raise ValidationError, lg_fresh)
  /\ mcmc_runs
       (trace (snd (lg_sample [4] (Some lg_x_batch) true None None None
                      lg_fresh)))
     = mcmc_runs (trace lg_fresh).
Proof.
  split; [reflexivity|].
  exact (sample_rejects_batched_x lg_as_float32 lg_mcmc [4] (Some lg_x_batch)
           lg_x_batch 2 true None None None lg_fresh eq_refl eq_refl
           ltac:(lia)).
Defined.

Lemma missing_x_raises_configuration_error_witness :
  default_x lg_fresh = None
  /\ lg_log_prob lg_theta None false lg_fresh
     = (Raise ConfigurationError, lg_fresh)
  /\ lg_sample [4] None true None None None lg_fresh
     = (Raise ConfigurationError, lg_fresh).
Proof.
  split; [reflexivity|].
  exact (missing_x_raises_configuration_error lg_as_float32 lg_net_log_prob
           lg_prior_log_prob lg_add lg_mcmc lg_theta false [4] true None None
           None lg_fresh eq_refl).
Defined.

Lemma sample_rejects_inconsistent_x_witness :
  tshape (atleast_2d_float32_tensor lg_as_float32 lg_x_wide) = [1; 4]
  /\ (tshape <$> default_x lg_with_default) = Some [1; 3]
  /\ lg_sample [4] (Some lg_x_wide) true None None None lg_with_default
     = (Raise ValidationError, lg_with_default).
Proof.
  split; [reflexivity|]. split; [reflexivity|].
  apply (sample_rejects_inconsistent_x lg_as_float32 lg_mcmc [4]
           (Some lg_x_wide) lg_x_wide (mkTensor [1; 3] [0; 0; 0]%Z)).
  - reflexivity.
  - reflexivity.
  - simpl. discriminate.
Defined.

(** The caller gives only [thin]; the stored dictionary also has
    [warmup_steps].  The driver receives the caller's dictionary alone: the
    stored [warmup_steps] is gone, where an entry-wise merge keeps it. *)
Lemma sample_parameters_not_merged :
  exists call,
    last_mcmc_call
      (trace (snd (lg_sample [4] None true None None
                     (Some {[ "thin" := PInt 5 ]}) lg_with_default)))
    = Some call
    /\ call_kwargs call !! "warmup_steps" = None
    /\ mcmc_parameters lg_with_default !! "warmup_steps" = Some (PInt 50)
    /\ merged_over_defaults (Some {[ "thin" := PInt 5 ]})
         (mcmc_parameters lg_with_default) !! "warmup_steps"
       = Some (PInt 50).
Proof.
  eexists. split; [reflexivity|].
  split; [|split]; vm_compute; reflexivity.
Qed.

Lemma sample_override_replaces_witness :
  exists call,
    call_mcmc_method call = "slice_np"
    /\ call_kwargs call = {[ "thin" := PInt 5 ]}
    /\ trace (snd (emit (EvMcmc call) lg_with_default))
       = trace lg_with_default ++ [EvMcmc call]
    /\ lg_sample [4] None true None None (Some {[ "thin" := PInt 5 ]})
         lg_with_default
       = match lg_mcmc call (snd (emit (EvMcmc call) lg_with_default)) with
         | (Return samples, st') =>
             (reshape samples (shape_with_inferred_tail [4]), st')
         | (Raise e, st') => (Raise e, st')
         end.
Proof.
  exact (sample_override_replaces lg_as_float32 lg_mcmc [4] None
           (mkTensor [1; 3] [0; 0; 0]%Z) true None None
           (Some {[ "thin" := PInt 5 ]}) lg_with_default eq_refl eq_refl).
Defined.

Lemma sample_preserves_defaults_witness :
  default_x (snd (lg_sample [4] None true None (Some "hmc")
                    (Some {[ "thin" := PInt 5 ]}) lg_with_default))
  = default_x lg_with_default
  /\ mcmc_method (snd (lg_sample [4] None true None (Some "hmc")
                         (Some {[ "thin" := PInt 5 ]}) lg_with_default))
     = "slice_np"
  /\ mcmc_parameters (snd (lg_sample [4] None true None (Some "hmc")
                             (Some {[ "thin" := PInt 5 ]}) lg_with_default))
     = lg_stored_parameters.
Proof.
  apply (sample_preserves_defaults lg_as_float32 lg_mcmc [4] None true None
           (Some "hmc") (Some {[ "thin" := PInt 5 ]}) lg_with_default).
  intros c st. simpl. repeat split.
Defined.

(** ** Further properties of [sample] and [log_prob] *)

Section Outcomes.

Context {scalar rng_state : Type}.
Variable as_float32 : scalar -> scalar.
Variable net_log_prob : Tensor scalar -> Tensor scalar -> Tensor scalar.
Variable prior_log_prob : Tensor scalar -> Tensor scalar.
Variable tensor_add : Tensor scalar -> Tensor scalar -> Tensor scalar.
Variable mcmc : McmcCall scalar -> M scalar rng_state (Tensor scalar).

Implicit Types (st : State scalar rng_state) (x theta : Tensor scalar).
Implicit Types (sample_shape : list nat) (xo : option (Tensor scalar)).

Local Abbreviation coerce := (atleast_2d_float32_tensor as_float32).

(** Every call of [sample] takes one of three courses, and which one is
    settled by the observation alone. *)
Lemma sample_cases sample_shape xo spb swm mm mp st :
  sample as_float32 mcmc sample_shape xo spb swm mm mp st
  = match resolved_x st xo with
    | None => (Raise ConfigurationError, st)
    | Some x =>
        if passes_checks as_float32 st x then
          let call := mkMcmcCall (coerce x) (size_numel sample_shape) spb
                        (default (mcmc_method st) mm)
                        (default (mcmc_parameters st) mp) in
          match mcmc call (snd (emit (EvMcmc call) st)) with
          | (Return samples, st') =>
              (reshape samples (shape_with_inferred_tail sample_shape), st')
          | (Raise e, st') => (Raise e, st')
          end
        else (Raise ValidationError, st)
    end.
Proof.
  destruct (resolved_x st xo) as [x|] eqn:Hx.
  - destruct (passes_checks as_float32 st x) eqn:Hchk.
    + by apply sample_run.
    + unfold sample. unfold bind at 1.
      rewrite (x_else_default_x_resolved _ _ _ Hx).
      unfold bind at 1. rewrite ensure_single_x_outcome.
      unfold passes_checks in Hchk.
      apply andb_false_iff in Hchk as [Hsingle|Hcons].
      * by rewrite Hsingle.
      * destruct (bool_decide (batch_dim (coerce x) = Some 1));
          [|reflexivity].
        unfold bind at 1. rewrite ensure_x_consistent_outcome.
        destruct (default_x st) as [x_o|]; [|discriminate].
        by rewrite Hcons.
  - destruct xo as [x|]; [discriminate|]. simpl in Hx.
    unfold sample. unfold bind at 1.
    by rewrite (x_else_default_x_missing _ Hx).
Qed.

(** The reshape at the end of [sample] depends on the batch only through
    its number of elements. *)
Lemma reshape_inferred_tail (t : Tensor scalar) (s : list nat) :
  reshape t (shape_with_inferred_tail s)
  = if (0 <? size_numel s) && (numel t mod size_numel s =? 0)
    then Return (mkTensor (s ++ [numel t / size_numel s]) (tdata t))
    else Raise RuntimeError.
Proof.
  unfold reshape. rewrite infer_size_inferred_tail.
  by destruct ((0 <? size_numel s) && (numel t mod size_numel s =? 0)).
Qed.

Lemma size_numel_app (s1 s2 : list nat) :
  size_numel (s1 ++ s2) = size_numel s1 * size_numel s2.
Proof.
  induction s1 as [|n s1 IH]; simpl; [lia|]. rewrite IH. lia.
Qed.

(** X1: an exception of the MCMC driver leaves [sample] as it is, together
    with whatever the driver did to the state; nothing is retried and no
    reshape is attempted. *)
Theorem sample_driver_error_propagates
    sample_shape xo x spb swm mm mp st e st' :
  resolved_x st xo = Some x ->
  passes_checks as_float32 st x = true ->
  (let call := mkMcmcCall (coerce x) (size_numel sample_shape) spb
                 (default (mcmc_method st) mm)
                 (default (mcmc_parameters st) mp) in
   mcmc call (snd (emit (EvMcmc call) st)) = (Raise e, st')) ->
  sample as_float32 mcmc sample_shape xo spb swm mm mp st = (Raise e, st').
Proof.
  intros Hx Hchk Hrun. rewrite sample_cases, Hx, Hchk.
  cbv zeta in *. by rewrite Hrun.
Qed.

(** X2: whenever [sample] returns a tensor, the observation resolved and
    passed both checks, the driver ran once and returned a batch,
    sample_shape has no zero extent, and the result is that batch with the
    same elements in the same order under the shape sample_shape followed
    by one more dimension. *)
Theorem sample_return_is_reshaped_batch
    sample_shape xo spb swm mm mp st t st' :
  sample as_float32 mcmc sample_shape xo spb swm mm mp st = (Return t, st') ->
  exists x samples d,
    resolved_x st xo = Some x
    /\ passes_checks as_float32 st x = true
    /\ (let call := mkMcmcCall (coerce x) (size_numel sample_shape) spb
                      (default (mcmc_method st) mm)
                      (default (mcmc_parameters st) mp) in
        mcmc call (snd (emit (EvMcmc call) st)) = (Return samples, st'))
    /\ Forall (fun n => 0 < n) sample_shape
    /\ tshape t = sample_shape ++ [d]
    /\ tdata t = tdata samples
    /\ numel t = numel samples.
Proof.
  rewrite sample_cases.
  destruct (resolved_x st xo) as [x|] eqn:Hx; [|discriminate].
  destruct (passes_checks as_float32 st x) eqn:Hchk; [|discriminate].
  cbv zeta.
  destruct (mcmc _ _) as [[samples|e] st2] eqn:Hrun; [|discriminate].
  rewrite reshape_inferred_tail.
  destruct (Nat.ltb_spec 0 (size_numel sample_shape)) as [Hpos|];
    [|discriminate].
  destruct (Nat.eqb_spec (numel samples mod size_numel sample_shape) 0)
    as [Hmod|]; [|discriminate].
  simpl. intros [= <- <-].
  exists x, samples, (numel samples / size_numel sample_shape).
  split; [reflexivity|]. split; [exact Hchk|]. split; [exact Hrun|].
  split; [by apply size_numel_pos|].
  split; [reflexivity|]. split; [reflexivity|].
  unfold numel at 1. simpl. rewrite size_numel_app. simpl.
  rewrite Nat.mul_1_r. symmetry. apply Nat.Div0.div_exact, Hmod.
Qed.

(** X3: when the driver's batch cannot be split into product(sample_shape)
    equal parts (the product is zero, or does not divide the number of
    elements), [sample] raises [RuntimeError], and it does so after the
    MCMC run: the state is the one the driver left. *)
Theorem sample_indivisible_batch_raises
    sample_shape xo x spb swm mm mp st samples st' :
  resolved_x st xo = Some x ->
  passes_checks as_float32 st x = true ->
  (let call := mkMcmcCall (coerce x) (size_numel sample_shape) spb
                 (default (mcmc_method st) mm)
                 (default (mcmc_parameters st) mp) in
   mcmc call (snd (emit (EvMcmc call) st)) = (Return samples, st')) ->
  size_numel sample_shape = 0
  \/ numel samples mod size_numel sample_shape <> 0 ->
  sample as_float32 mcmc sample_shape xo spb swm mm mp st
  = (Raise RuntimeError, st').
Proof.
  intros Hx Hchk Hrun Hbad. rewrite sample_cases, Hx, Hchk.
  cbv zeta in *. rewrite Hrun, reshape_inferred_tail.
  destruct Hbad as [Hz|Hmod].
  - by rewrite Hz.
  - apply Nat.eqb_neq in Hmod. by rewrite Hmod, andb_false_r.
Qed.

(** X4: [sample] neither truncates nor rejects a batch with a multiple of
    the requested rows: with [k] times product(sample_shape) rows of width
    [d] the result has shape sample_shape followed by [k * d]. *)
Theorem sample_surplus_rows_widen_last_dimension
    sample_shape xo x spb swm mm mp st samples st' k d :
  0 < size_numel sample_shape ->
  resolved_x st xo = Some x ->
  passes_checks as_float32 st x = true ->
  (let call := mkMcmcCall (coerce x) (size_numel sample_shape) spb
                 (default (mcmc_method st) mm)
                 (default (mcmc_parameters st) mp) in
   mcmc call (snd (emit (EvMcmc call) st)) = (Return samples, st')) ->
  tshape samples = [k * size_numel sample_shape; d] ->
  sample as_float32 mcmc sample_shape xo spb swm mm mp st
  = (Return (mkTensor (sample_shape ++ [k * d]) (tdata samples)), st').
Proof.
  intros Hpos Hx Hchk Hrun Hshape. rewrite sample_cases, Hx, Hchk.
  cbv zeta in *. rewrite Hrun, reshape_inferred_tail.
  assert (numel samples = k * d * size_numel sample_shape) as ->.
  { unfold numel. rewrite Hshape. simpl. lia. }
  rewrite Nat.Div0.mod_mul, Nat.div_mul by lia.
  destruct (Nat.ltb_spec 0 (size_numel sample_shape)); [|lia].
  reflexivity.
Qed.

(** X5: passing the stored default observation explicitly is the same call
    as omitting x, for [sample] and for [log_prob]. *)
Theorem explicit_default_same_as_omitted
    theta track_gradients sample_shape spb swm mm mp st x_o :
  default_x st = Some x_o ->
  sample as_float32 mcmc sample_shape (Some x_o) spb swm mm mp st
  = sample as_float32 mcmc sample_shape None spb swm mm mp st
  /\ log_prob net_log_prob prior_log_prob tensor_add theta (Some x_o)
       track_gradients st
     = log_prob net_log_prob prior_log_prob tensor_add theta None
         track_gradients st.
Proof.
  intros Hd. split.
  - rewrite !sample_cases. simpl. by rewrite Hd.
  - unfold log_prob, build_theta_x_for_log_prob_. unfold bind.
    rewrite (x_else_default_x_resolved st (Some x_o) x_o eq_refl).
    by rewrite (x_else_default_x_resolved st None x_o Hd).
Qed.

(** X6: [log_prob] changes nothing but the trace: stored defaults and the
    random generator are untouched and the gradient mode is back to what it
    was, whatever track_gradients; the warning is added exactly when x
    resolves, that is, when the preparation of theta and x got through. *)
Theorem log_prob_changes_only_trace theta xo track_gradients st :
  snd (log_prob net_log_prob prior_log_prob tensor_add theta xo
         track_gradients st)
  = mkState (default_x st) (mcmc_method st) (mcmc_parameters st)
      (grad_enabled st) (rng st)
      (trace st
       ++ match resolved_x st xo with
          | Some _ => [EvWarn normalizing_constant_warning]
          | None => []
          end).
Proof.
  destruct (resolved_x st xo) as [x|] eqn:Hx.
  - unfold log_prob, build_theta_x_for_log_prob_. unfold bind.
    by rewrite (x_else_default_x_resolved _ _ _ Hx).
  - destruct xo as [x|]; [discriminate|]. simpl in Hx.
    unfold log_prob, build_theta_x_for_log_prob_. unfold bind.
    rewrite (x_else_default_x_missing _ Hx). simpl.
    rewrite app_nil_r. by destruct st.
Qed.

(** X7: sample_shape reaches the driver only as its product.  Two shapes
    with the same product lead to the same MCMC run and the same final
    state; a returned tensor has the same elements under either shape and
    an exception is the same exception. *)
Theorem sample_shape_matters_only_through_product
    sample_shape sample_shape' xo spb swm mm mp st :
  size_numel sample_shape = size_numel sample_shape' ->
  snd (sample as_float32 mcmc sample_shape xo spb swm mm mp st)
  = snd (sample as_float32 mcmc sample_shape' xo spb swm mm mp st)
  /\ (forall t,
        fst (sample as_float32 mcmc sample_shape xo spb swm mm mp st)
        = Return t ->
        exists d,
          tshape t = sample_shape ++ [d]
          /\ fst (sample as_float32 mcmc sample_shape' xo spb swm mm mp st)
             = Return (mkTensor (sample_shape' ++ [d]) (tdata t)))
  /\ (forall e,
        fst (sample as_float32 mcmc sample_shape xo spb swm mm mp st)
        = Raise e ->
        fst (sample as_float32 mcmc sample_shape' xo spb swm mm mp st)
        = Raise e).
Proof.
  intros Heq. rewrite !sample_cases.
  destruct (resolved_x st xo) as [x|];
    [|split; [reflexivity|split; [discriminate|auto]]].
  destruct (passes_checks as_float32 st x);
    [|split; [reflexivity|split; [discriminate|auto]]].
  cbv zeta. rewrite <- Heq.
  destruct (mcmc _ _) as [[samples|e] st2];
    [|split; [reflexivity|split; [discriminate|auto]]].
  rewrite !reshape_inferred_tail, <- Heq.
  destruct ((0 <? size_numel sample_shape)
            && (numel samples mod size_numel sample_shape =? 0));
    simpl; (split; [reflexivity|split]); try discriminate; auto.
  intros t [= <-]. eexists. split; reflexivity.
Qed.

(** X8: a call of [log_prob] has no influence on the checks of later calls:
    in the state it leaves, every x resolves as before and passes or fails
    the checks of [sample] as before. *)
Theorem log_prob_keeps_validation theta xo track_gradients st xo' x' :
  resolved_x
    (snd (log_prob net_log_prob prior_log_prob tensor_add theta xo
            track_gradients st)) xo'
  = resolved_x st xo'
  /\ passes_checks as_float32
       (snd (log_prob net_log_prob prior_log_prob tensor_add theta xo
               track_gradients st)) x'
     = passes_checks as_float32 st x'.
Proof.
  assert (default_x
            (snd (log_prob net_log_prob prior_log_prob tensor_add theta xo
                    track_gradients st)) = default_x st) as Hd.
  { unfold log_prob, build_theta_x_for_log_prob_. unfold bind.
    destruct (resolved_x st xo) as [x|] eqn:Hx.
    - by rewrite (x_else_default_x_resolved _ _ _ Hx).
    - destruct xo as [x|]; [discriminate|]. simpl in Hx.
      by rewrite (x_else_default_x_missing _ Hx). }
  unfold resolved_x, passes_checks. by rewrite Hd.
Qed.

End Outcomes.

(** ** The further properties on the concrete posterior *)

Lemma sample_driver_error_propagates_witness :
  passes_checks lg_as_float32 lg_fresh lg_x = true
  /\ sample lg_as_float32 lg_mcmc_failing [4] (Some lg_x) true None None None
       lg_fresh
     = (Raise SamplingError,
        mkState None "slice_np" lg_stored_parameters false 1
          [EvMcmc (mkMcmcCall (mkTensor [1; 3] [0; 0; 0]%Z) 4 true "slice_np"
                     lg_stored_parameters)]).
Proof.
  split; [reflexivity|].
  exact (sample_driver_error_propagates lg_as_float32 lg_mcmc_failing [4]
           (Some lg_x) lg_x true None None None lg_fresh SamplingError _
           eq_refl eq_refl eq_refl).
Defined.

Lemma sample_return_is_reshaped_batch_witness :
  exists x samples d,
    resolved_x lg_with_default None = Some x
    /\ passes_checks lg_as_float32 lg_with_default x = true
    /\ (let call := mkMcmcCall (atleast_2d_float32_tensor lg_as_float32 x)
                      (size_numel [2; 2]) false
                      (default (mcmc_method lg_with_default) (Some "hmc"))
                      (default (mcmc_parameters lg_with_default) None) in
        lg_mcmc call (snd (emit (EvMcmc call) lg_with_default))
        = (Return samples,
           snd (lg_sample [2; 2] None false None (Some "hmc") None
                  lg_with_default)))
    /\ Forall (fun n => 0 < n) [2; 2]
    /\ tshape (zeros [2; 2; 3]) = [2; 2] ++ [d]
    /\ tdata (zeros [2; 2; 3]) = tdata samples
    /\ numel (zeros [2; 2; 3]) = numel samples.
Proof.
  exact (sample_return_is_reshaped_batch lg_as_float32 lg_mcmc [2; 2] None
           false None (Some "hmc") None lg_with_default (zeros [2; 2; 3]) _
           eq_refl).
Defined.

Lemma sample_indivisible_batch_raises_witness :
  numel (zeros [3; lg_dim]) mod size_numel [2] <> 0
  /\ fst (sample lg_as_float32 lg_mcmc_three_rows [2] (Some lg_x) true None
            None None lg_fresh)
     = Raise RuntimeError
  /\ rng (snd (sample lg_as_float32 lg_mcmc_three_rows [2] (Some lg_x) true
                 None None None lg_fresh))
     = 1.
Proof.
  assert (numel (zeros [3; lg_dim]) mod size_numel [2] <> 0) as Hmod
    by (vm_compute; discriminate).
  split; [exact Hmod|].
  pose proof (sample_indivisible_batch_raises lg_as_float32
                lg_mcmc_three_rows [2] (Some lg_x) lg_x true None None None
                lg_fresh (zeros [3; lg_dim]) _ eq_refl eq_refl eq_refl
                (or_intror Hmod)) as H.
  split; [exact (f_equal fst H) | exact (f_equal (fun r => rng (snd r)) H)].
Defined.

Lemma sample_surplus_rows_widen_last_dimension_witness :
  0 < size_numel [2; 2]
  /\ fst (sample lg_as_float32 lg_mcmc_surplus [2; 2] (Some lg_x) true None
            None None lg_fresh)
     = Return (zeros [2; 2; 6]).
Proof.
  split; [vm_compute; lia|].
  exact (f_equal fst
           (sample_surplus_rows_widen_last_dimension lg_as_float32
              lg_mcmc_surplus [2; 2] (Some lg_x) lg_x true None None None
              lg_fresh (zeros [8; lg_dim]) _ 2 lg_dim
              ltac:(vm_compute; lia) eq_refl eq_refl eq_refl eq_refl)).
Defined.

Lemma explicit_default_same_as_omitted_witness :
  lg_sample [4] (Some (mkTensor [1; 3] [0; 0; 0]%Z)) true None None None
    lg_with_default
  = lg_sample [4] None true None None None lg_with_default
  /\ lg_log_prob lg_theta (Some (mkTensor [1; 3] [0; 0; 0]%Z)) false
       lg_with_default
     = lg_log_prob lg_theta None false lg_with_default.
Proof.
  exact (explicit_default_same_as_omitted lg_as_float32 lg_net_log_prob
           lg_prior_log_prob lg_add lg_mcmc lg_theta false [4] true None None
           None lg_with_default (mkTensor [1; 3] [0; 0; 0]%Z) eq_refl).
Defined.

Lemma sample_shape_matters_only_through_product_witness :
  size_numel [10; 5] = size_numel [50]
  /\ snd (lg_sample [10; 5] (Some lg_x) true None None None lg_fresh)
     = snd (lg_sample [50] (Some lg_x) true None None None lg_fresh)
  /\ exists d,
       tshape (zeros [10; 5; 3]) = [10; 5] ++ [d]
       /\ fst (lg_sample [50] (Some lg_x) true None None None lg_fresh)
          = Return (mkTensor ([50] ++ [d]) (tdata (zeros [10; 5; 3]))).
Proof.
  split; [reflexivity|].
  destruct (sample_shape_matters_only_through_product lg_as_float32 lg_mcmc
              [10; 5] [50] (Some lg_x) true None None None lg_fresh eq_refl)
    as (Hst & Hret & _).
  split; [exact Hst | exact (Hret (zeros [10; 5; 3]) eq_refl)].
Defined.
